(** * Density-Calculator: the unit converter and the ideal-gas density formula

    A shallow embedding of [DensityCalc.py]: the class [UnitConverter]
    (methods [convert_pressure], [convert_temperature], [convert_density])
    and the handler of the "Calculate Density" button inside
    [density_calculation_app].

    Python computes with binary64 floats.  The program text is embedded once,
    over an interface [PyFloat] of the arithmetic it uses, and read at two
    instances:
    - [exact]: the rationals [Q], the arithmetic the formulas are meant in;
    - [binary64]: Rocq's primitive floats, IEEE 754 binary64 with
      round-to-nearest-even, the arithmetic CPython runs.
    Python's [/] raises [ZeroDivisionError] on a zero divisor; unknown units
    raise [ValueError].  Both are kept as values of [exn]. *)

From Stdlib Require Import ZArith QArith Qabs String List Bool Lia Lqa.
From Stdlib Require Import PrimFloat FloatOps FloatAxioms Uint63.
Import ListNotations.

Set Warnings "-inexact-float".

(** ** Python exceptions and results *)

Inductive exn : Type :=
| ValueError (msg : string)
| ZeroDivisionError.

(** A call either raises ([inl]) or returns ([inr]). *)
Definition result (A : Type) : Type := (exn + A)%type.

Definition ret {A : Type} (a : A) : result A := inr a.

Definition raise {A : Type} (e : exn) : result A := inl e.

Definition bind {A B : Type} (r : result A) (k : A -> result B) : result B :=
  match r with
  | inl e => inl e
  | inr a => k a
  end.

Declare Scope py_scope.
Delimit Scope py_scope with py.

Notation "x <- r ;; k" := (bind r (fun x => k))
  (at level 61, r at next level, right associativity) : py_scope.

(** ** The arithmetic of Python floats, as an interface *)

Class PyFloat (T : Type) : Type := {
  lit : Q -> T;            (* a decimal or integer literal of the program text *)
  add : T -> T -> T;
  sub : T -> T -> T;
  mul : T -> T -> T;
  quot : T -> T -> T;      (* the quotient, for a divisor that is not zero *)
  is_zero : T -> bool;
  leb : T -> T -> bool     (* [x <= y] *)
}.

(** [x / y] of Python: [ZeroDivisionError] when [y] is zero. *)
Definition truediv {T : Type} `{PyFloat T} (x y : T) : result T :=
  if is_zero y then raise ZeroDivisionError else ret (quot x y).

Notation "$ q" := (lit q) (at level 1, q at level 0, format "$ q") : py_scope.
Infix "+" := add : py_scope.
Infix "-" := sub : py_scope.
Infix "*" := mul : py_scope.
Infix "/" := truediv : py_scope.
Infix "<=?" := leb : py_scope.

(** *** Exact arithmetic *)

#[export] Instance exact : PyFloat Q := {|
  lit := fun q => q;
  add := Qplus;
  sub := Qminus;
  mul := Qmult;
  quot := Qdiv;
  is_zero := fun q => Qeq_bool q 0;
  leb := Qle_bool
|}.

(** *** IEEE 754 binary64 *)

Definition float_of_Z (z : Z) : float :=
  match z with
  | Z0 => PrimFloat.zero
  | Zpos _ => PrimFloat.of_uint63 (Uint63.of_Z z)
  | Zneg p => PrimFloat.opp (PrimFloat.of_uint63 (Uint63.of_Z (Zpos p)))
  end.

(** A literal [m / 10^k] is read as the float nearest to it.  Numerator and
    denominator of the literals of this program are below [2^53], hence
    floats themselves, and the IEEE quotient of two floats is the float
    nearest to their quotient. *)
Definition float_of_literal (q : Q) : float :=
  PrimFloat.div (float_of_Z (Qnum q)) (float_of_Z (Zpos (Qden q))).

#[export] Instance binary64 : PyFloat float := {|
  lit := float_of_literal;
  add := PrimFloat.add;
  sub := PrimFloat.sub;
  mul := PrimFloat.mul;
  quot := PrimFloat.div;
  is_zero := PrimFloat.is_zero;
  leb := PrimFloat.leb
|}.

(** The exact value of a finite float. *)
Definition Q_of_float (f : float) : option Q :=
  match Prim2SF f with
  | SpecFloat.S754_zero _ => Some 0%Q
  | SpecFloat.S754_finite s m e =>
      Some (inject_Z (if s then Zneg m else Zpos m) * Qpower 2 e)%Q
  | _ => None
  end.

(** ** class UnitConverter *)

Section UnitConverter.

Context {T : Type} `{PyFloat T}.

Local Open Scope string_scope.
Local Open Scope py_scope.

Definition convert_pressure (value : T) (from_unit to_unit : string) : result T :=
  (* 1. Convert to base unit (kPa) *)
  base_value <-
    (if from_unit =? "barg" then ret (value * $100 + $101.325)
     else if from_unit =? "kg/cm2" then ret (value * $98.0665)
     else if from_unit =? "pasig" then ret (value * $0.00689476)
     else if from_unit =? "kPa" then ret value
     else if from_unit =? "pascal" then value / $1000
     else if from_unit =? "mmH2O" then ret (value * $0.00980638)
     else raise (ValueError ("Unknown pressure unit: " ++ from_unit))) ;;
  (* 2. Convert from base unit (kPa) to target unit *)
  if to_unit =? "barg" then (base_value - $101.325) / $100
  else if to_unit =? "kg/cm2" then base_value / $98.0665
  else if to_unit =? "pasig" then base_value / $0.00689476
  else if to_unit =? "kPa" then ret base_value
  else if to_unit =? "pascal" then ret (base_value * $1000)
  else if to_unit =? "mmH2O" then base_value / $0.00980638
  else raise (ValueError ("Unknown pressure unit: " ++ to_unit)).

Definition convert_temperature (value : T) (from_unit to_unit : string) : result T :=
  (* 1. Convert to base unit (Kelvin) *)
  base_value <-
    (if from_unit =? "C" then ret (value + $273.15)
     else if from_unit =? "F" then
       (k <- $5 / $9 ;; ret ((value - $32) * k + $273.15))
     else if from_unit =? "K" then ret value
     else if from_unit =? "R" then
       (k <- $5 / $9 ;; ret (value * k))
     else raise (ValueError ("Unknown temperature unit: " ++ from_unit))) ;;
  (* 2. Convert from base unit (Kelvin) to target unit *)
  if to_unit =? "C" then ret (base_value - $273.15)
  else if to_unit =? "F" then
    (k <- $9 / $5 ;; ret ((base_value - $273.15) * k + $32))
  else if to_unit =? "K" then ret base_value
  else if to_unit =? "R" then
    (k <- $9 / $5 ;; ret (base_value * k))
  else raise (ValueError ("Unknown temperature unit: " ++ to_unit)).

Definition convert_density (value : T) (from_unit to_unit : string) : result T :=
  if from_unit =? to_unit then ret value
  else raise (ValueError "Density conversion not implemented for this context.").

End UnitConverter.

(** ** The calculator *)

(* converter = UnitConverter() has no fields: its methods are the functions
   above. *)

(** The widget lists of [density_calculation_app]. *)
Definition pressure_units : list string :=
  ["barg"; "kg/cm2"; "pasig"; "kPa"; "pascal"; "mmH2O"]%string.

Definition temp_units : list string := ["C"; "F"; "K"; "R"]%string.

(** A call of a converter method, recorded when the handler makes it. *)
Inductive call (T : Type) : Type :=
| CallConvertPressure (value : T) (from_unit to_unit : string)
| CallConvertTemperature (value : T) (from_unit to_unit : string).

Arguments CallConvertPressure {T} value from_unit to_unit.
Arguments CallConvertTemperature {T} value from_unit to_unit.

(** What the handler shows.
    - [Success]: [st.success] with the density and [st.info] with the three
      SI values (before their formatting);
    - [InvalidInput]: [st.error] of the guard, followed by [return];
    - [UnitConversionError]: the [except ValueError] branch;
    - [ComputationError]: the [except Exception] branch. *)
Inductive outcome (T : Type) : Type :=
| Success (density pressure_pa temperature_k molecular_weight_kg_mol : T)
| InvalidInput
| UnitConversionError (msg : string)
| ComputationError (e : exn).

Arguments Success {T} density pressure_pa temperature_k molecular_weight_kg_mol.
Arguments InvalidInput {T}.
Arguments UnitConversionError {T} msg.
Arguments ComputationError {T} e.

(** The body of the [try]: a result, and the converter calls made so far. *)
Definition App (T A : Type) : Type := list (call T) -> result A * list (call T).

Definition app_ret {T A : Type} (a : A) : App T A := fun log => (ret a, log).

Definition app_bind {T A B : Type} (m : App T A) (k : A -> App T B) : App T B :=
  fun log =>
    match m log with
    | (inl e, log') => (inl e, log')
    | (inr a, log') => k a log'
    end.

(** Calling a method: the call is recorded, its result or exception passed on. *)
Definition invoke {T A : Type} (c : call T) (r : result A) : App T A :=
  fun log => (r, log ++ [c]).

(** An expression evaluated in place. *)
Definition eval {T A : Type} (r : result A) : App T A := fun log => (r, log).

Declare Scope app_scope.
Delimit Scope app_scope with app.

Notation "x <- m ;; k" := (app_bind m (fun x => k))
  (at level 61, m at next level, right associativity) : app_scope.

Section DensityCalculation.

Context {T : Type} `{PyFloat T}.

Local Open Scope string_scope.
Local Open Scope py_scope.

(* Universal gas constant in J/(mol K) *)
Definition UNIVERSAL_GAS_CONSTANT : T := $8.314.

Definition try_body (pressure_value : T) (pressure_unit : string)
    (temperature_value : T) (temperature_unit : string)
    (molecular_weight compressibility_factor : T) : App T (outcome T) :=
  (* Check for zero inputs that cause division by zero *)
  if (compressibility_factor <=? $0) || (temperature_value <=? $0)
  then app_ret InvalidInput
  else
    (pressure_kpa <-
       invoke (CallConvertPressure pressure_value pressure_unit "kPa")
              (convert_pressure pressure_value pressure_unit "kPa") ;;
     temperature_k <-
       invoke (CallConvertTemperature temperature_value temperature_unit "K")
              (convert_temperature temperature_value temperature_unit "K") ;;
     let pressure_pa := pressure_kpa * $1000 in
     molecular_weight_kg_mol <- eval (molecular_weight / $1000) ;;
     density <-
       eval ((pressure_pa * molecular_weight_kg_mol)
             / (compressibility_factor * UNIVERSAL_GAS_CONSTANT * temperature_k)) ;;
     app_ret (Success density pressure_pa temperature_k molecular_weight_kg_mol))%app.

(** The handler of the button: the [try] with its two [except] branches. *)
Definition density_calculation_app (pressure_value : T) (pressure_unit : string)
    (temperature_value : T) (temperature_unit : string)
    (molecular_weight compressibility_factor : T)
    (log : list (call T)) : outcome T * list (call T) :=
  match try_body pressure_value pressure_unit temperature_value temperature_unit
                 molecular_weight compressibility_factor log with
  | (inr shown, log') => (shown, log')
  | (inl (ValueError msg), log') => (UnitConversionError msg, log')
  | (inl e, log') => (ComputationError e, log')
  end.

End DensityCalculation.

(** ** Laws of an arithmetic *)

(** The literals the converter divides by.  In either arithmetic none of them
    is zero, so no conversion raises [ZeroDivisionError]. *)
Definition divisors : list Q :=
  [100; 98.0665; 0.00689476; 1000; 0.00980638; 9; 5]%Q.

Class LiteralDivisors (T : Type) `{PyFloat T} : Prop :=
  divisors_nonzero : forallb (fun q => negb (is_zero (lit q))) divisors = true.

Local Open Scope string_scope.

(** ** Round trips through the base unit, and tolerances *)

(** [convert_pressure(convert_pressure(v, U, 'kPa'), 'kPa', U)] *)
Definition pressure_round_trip {T : Type} `{PyFloat T} (v : T) (U : string)
  : result T :=
  (b <- convert_pressure v U "kPa" ;; convert_pressure b "kPa" U)%py.

(** [convert_temperature(convert_temperature(v, U, 'K'), 'K', U)] *)
Definition temperature_round_trip {T : Type} `{PyFloat T} (v : T) (U : string)
  : result T :=
  (b <- convert_temperature v U "K" ;; convert_temperature b "K" U)%py.

(** [x] is within the relative tolerance [tol] of [v]. *)
Definition within_rel (tol x v : Q) : Prop := (Qabs (x - v) <= tol * Qabs v)%Q.

(** [x] is within the absolute tolerance [tol] of [v]. *)
Definition within_abs (tol x v : Q) : Prop := (Qabs (x - v) <= tol)%Q.

(** A binary64 call returned a finite float within [1e-9] (relative) of the
    float [v], both taken at their exact values. *)
Definition returns_close (r : result float) (v : float) : Prop :=
  exists (x : float) (qx qv : Q),
    r = inr x /\ Q_of_float x = Some qx /\ Q_of_float v = Some qv /\
    within_rel 1e-9 qx qv.

(** * Proofs *)

(** ** The two arithmetics satisfy the law *)

#[export] Instance exact_divisors : LiteralDivisors Q.
Proof. reflexivity. Qed.

#[export] Instance binary64_divisors : LiteralDivisors float.
Proof. vm_compute. reflexivity. Qed.

(** The literals of the program are read as Rocq reads float literals. *)
Example binary64_literals :
  map float_of_literal
      [100; 101.325; 98.0665; 0.00689476; 1000; 0.00980638;
       273.15; 32; 5; 9; 8.314; 0]%Q
  = [100; 101.325; 98.0665; 0.00689476; 1000; 0.00980638;
     273.15; 32; 5; 9; 8.314; 0]%float.
Proof. vm_compute. reflexivity. Qed.

Ltac in_list := repeat first [left; reflexivity | right].

Ltac unknown_unit u Hn :=
  repeat match goal with
  | |- context [String.eqb u ?s] =>
      destruct (String.eqb_spec u s) as [->|_];
      [exfalso; apply Hn; solve [in_list]|]
  end.

Section ConverterLemmas.

Context {T : Type} `{LiteralDivisors T}.

Local Open Scope string_scope.

Lemma lit_nonzero (q : Q) : In q divisors -> is_zero (lit q) = false.
Proof.
  intros Hq.
  pose proof divisors_nonzero as Hd.
  rewrite forallb_forall in Hd.
  apply negb_true_iff, Hd, Hq.
Qed.

Lemma truediv_lit (x : T) (q : Q) :
  In q divisors -> truediv x (lit q) = inr (quot x (lit q)).
Proof.
  intros Hq. unfold truediv. rewrite (lit_nonzero q Hq). reflexivity.
Qed.

Ltac divide := rewrite ?truediv_lit by in_list.

Lemma convert_pressure_known (value : T) (from_unit to_unit : string) :
  In from_unit pressure_units -> In to_unit pressure_units ->
  exists x, convert_pressure value from_unit to_unit = inr x.
Proof.
  intros Hf Ht.
  repeat (destruct Hf as [<-|Hf]; [|]); try destruct Hf;
  repeat (destruct Ht as [<-|Ht]; [|]); try destruct Ht;
  unfold convert_pressure; cbn [String.eqb Ascii.eqb Bool.eqb]; divide;
  cbn [bind ret]; divide; eexists; reflexivity.
Qed.

Lemma convert_pressure_unknown_from (value : T) (from_unit to_unit : string) :
  ~ In from_unit pressure_units ->
  convert_pressure value from_unit to_unit
  = inl (ValueError ("Unknown pressure unit: " ++ from_unit)).
Proof.
  intros Hn. unfold convert_pressure. unknown_unit from_unit Hn. reflexivity.
Qed.

Lemma convert_pressure_unknown_to (value : T) (from_unit to_unit : string) :
  In from_unit pressure_units -> ~ In to_unit pressure_units ->
  convert_pressure value from_unit to_unit
  = inl (ValueError ("Unknown pressure unit: " ++ to_unit)).
Proof.
  intros Hf Hn.
  repeat (destruct Hf as [<-|Hf]; [|]); try destruct Hf;
  unfold convert_pressure; cbn [String.eqb Ascii.eqb Bool.eqb]; divide;
  cbn [bind ret]; unknown_unit to_unit Hn; reflexivity.
Qed.

Lemma convert_temperature_known (value : T) (from_unit to_unit : string) :
  In from_unit temp_units -> In to_unit temp_units ->
  exists x, convert_temperature value from_unit to_unit = inr x.
Proof.
  intros Hf Ht.
  repeat (destruct Hf as [<-|Hf]; [|]); try destruct Hf;
  repeat (destruct Ht as [<-|Ht]; [|]); try destruct Ht;
  unfold convert_temperature; cbn [String.eqb Ascii.eqb Bool.eqb]; divide;
  cbn [bind ret]; divide; cbn [bind ret]; eexists; reflexivity.
Qed.

End ConverterLemmas.

Section HandlerLemmas.

Context {T : Type} `{PyFloat T}.

Local Open Scope string_scope.
Local Open Scope py_scope.

(** The guard fires: nothing else of the [try] body runs. *)
Lemma guard_rejects (pressure_value : T) (pressure_unit : string)
    (temperature_value : T) (temperature_unit : string)
    (molecular_weight compressibility_factor : T) (log : list (call T)) :
  (compressibility_factor <=? $0) || (temperature_value <=? $0) = true ->
  density_calculation_app pressure_value pressure_unit temperature_value
    temperature_unit molecular_weight compressibility_factor log
  = (InvalidInput, log).
Proof.
  intros Hg. unfold density_calculation_app, try_body. rewrite Hg. reflexivity.
Qed.

Context `{!LiteralDivisors T}.

(** The guard passes and both conversions return: the handler shows the
    density unless the denominator is zero. *)
Lemma handler_runs (pressure_value : T) (pressure_unit : string)
    (temperature_value : T) (temperature_unit : string)
    (molecular_weight compressibility_factor : T) (log : list (call T))
    (pressure_kpa temperature_k : T) :
  (compressibility_factor <=? $0) || (temperature_value <=? $0) = false ->
  convert_pressure pressure_value pressure_unit "kPa" = inr pressure_kpa ->
  convert_temperature temperature_value temperature_unit "K" = inr temperature_k ->
  density_calculation_app pressure_value pressure_unit temperature_value
    temperature_unit molecular_weight compressibility_factor log
  = (if is_zero (compressibility_factor * UNIVERSAL_GAS_CONSTANT * temperature_k)
     then ComputationError ZeroDivisionError
     else Success
            (quot (pressure_kpa * $1000 * quot molecular_weight $1000)
                  (compressibility_factor * UNIVERSAL_GAS_CONSTANT * temperature_k))
            (pressure_kpa * $1000) temperature_k (quot molecular_weight $1000),
     (log ++ [CallConvertPressure pressure_value pressure_unit "kPa";
              CallConvertTemperature temperature_value temperature_unit "K"])%list).
Proof.
  intros Hg Hp Ht.
  unfold density_calculation_app, try_body, app_bind, invoke, eval, app_ret.
  rewrite Hg, Hp, Ht, truediv_lit by in_list.
  unfold truediv. rewrite <- app_assoc. cbn [app].
  destruct (is_zero _); reflexivity.
Qed.

End HandlerLemmas.

(** ** Facts of the two arithmetics *)

Ltac exact_arith := cbv [lit add sub mul quot is_zero leb exact].

Lemma exact_guard_fires (z tv : Q) :
  (z <= 0 \/ tv <= 0)%Q -> leb z (lit 0) || leb tv (lit 0) = true.
Proof.
  exact_arith.
  intros [Hz|Ht]; apply orb_true_iff; [left|right]; now apply Qle_bool_iff.
Qed.

Lemma exact_guard_passes (z tv : Q) :
  (0 < z)%Q -> (0 < tv)%Q -> leb z (lit 0) || leb tv (lit 0) = false.
Proof.
  exact_arith. intros Hz Ht. apply orb_false_iff; split;
    apply not_true_is_false; rewrite Qle_bool_iff; now apply Qlt_not_le.
Qed.

Lemma exact_is_zero_false (x : Q) : ~ (x == 0)%Q -> is_zero x = false.
Proof.
  exact_arith. intros Hx. apply not_true_is_false.
  intros E. now apply Hx, Qeq_bool_iff.
Qed.

(** A float above zero is not [<= 0] (no NaN is above zero). *)
Lemma binary64_pos_not_le (x : float) :
  PrimFloat.ltb 0 x = true -> PrimFloat.leb x 0 = false.
Proof.
  rewrite FloatAxioms.ltb_spec, FloatAxioms.leb_spec.
  change (Prim2SF 0) with (SpecFloat.S754_zero false).
  destruct (Prim2SF x) as [s|s| |s m e]; cbn; try discriminate; try reflexivity.
  all: destruct s; cbn; try discriminate; reflexivity.
Qed.

Lemma binary64_guard_passes (z tv : float) :
  PrimFloat.ltb 0 z = true -> PrimFloat.ltb 0 tv = true ->
  leb z (lit 0) || leb tv (lit 0) = false.
Proof.
  intros Hz Ht.
  change (PrimFloat.leb z 0 || PrimFloat.leb tv 0 = false).
  now rewrite (binary64_pos_not_le z Hz), (binary64_pos_not_le tv Ht).
Qed.

(** ** The claims *)

(** C2. With [compressibility_factor <= 0] or with a raw
    [temperature_value <= 0] (in the input's own unit) the handler shows the
    invalid-input error and calls no converter method: the log of calls is
    left as it was, whatever the units are, supported or not.  This holds in
    every arithmetic, for the comparison [<=] of that arithmetic; in exact
    arithmetic and in binary64 it covers [compressibility_factor = 0] and
    [temperature_value = -10] in any unit. *)
Theorem invalid_input_before_conversion :
  (forall (T : Type) (A : PyFloat T) (pv : T) (pu : string) (tv : T)
          (tu : string) (mw z : T) (log : list (call T)),
      leb z (lit 0) = true \/ leb tv (lit 0) = true ->
      density_calculation_app pv pu tv tu mw z log = (InvalidInput, log))
  /\ (forall (pv : Q) (pu : string) (tv : Q) (tu : string) (mw z : Q)
             (log : list (call Q)),
      (z <= 0 \/ tv <= 0)%Q ->
      density_calculation_app pv pu tv tu mw z log = (InvalidInput, log))
  /\ (forall (pv : Q) (pu : string) (tv : Q) (tu : string) (mw : Q)
             (log : list (call Q)),
      density_calculation_app pv pu tv tu mw 0%Q log = (InvalidInput, log))
  /\ (forall (pv : Q) (pu tu : string) (mw z : Q) (log : list (call Q)),
      density_calculation_app pv pu (-10)%Q tu mw z log = (InvalidInput, log))
  /\ (forall (pv : float) (pu : string) (tv : float) (tu : string) (mw : float)
             (log : list (call float)),
      density_calculation_app pv pu tv tu mw 0%float log = (InvalidInput, log))
  /\ (forall (pv : float) (pu tu : string) (mw z : float)
             (log : list (call float)),
      density_calculation_app pv pu (-10)%float tu mw z log
      = (InvalidInput, log)).
Proof.
  repeat apply conj; intros.
  - apply guard_rejects. apply orb_true_iff.
    match goal with H : _ \/ _ |- _ => exact H end.
  - apply guard_rejects. now apply exact_guard_fires.
  - apply guard_rejects. reflexivity.
  - apply guard_rejects. apply orb_true_iff. right. reflexivity.
  - apply guard_rejects. reflexivity.
  - apply guard_rejects. apply orb_true_iff. right. reflexivity.
Qed.

Lemma invalid_input_before_conversion_witness :
  density_calculation_app (T:=float) 100%float "bar" 298.15%float "K"
    28.01%float (-1)%float []
  = (InvalidInput, []).
Proof.
  apply (proj1 invalid_input_before_conversion float binary64).
  left. vm_compute. reflexivity.
Defined.

(** C6. [convert_pressure] raises the unknown-unit [ValueError] exactly when
    [from_unit] or [to_unit] is outside the six supported units, and it
    raises nothing else; [convert_pressure(1, 'bar', 'kPa')] raises it, since
    ['bar'] is not ['barg'].  For every arithmetic in which the literal
    divisors are not zero. *)
Theorem convert_pressure_unknown_unit (T : Type) (A : PyFloat T)
    (L : LiteralDivisors T) (value : T) (from_unit to_unit : string) :
  ((exists u, ~ In u pressure_units /\
              convert_pressure value from_unit to_unit
              = inl (ValueError ("Unknown pressure unit: " ++ u)))
   <-> ~ (In from_unit pressure_units /\ In to_unit pressure_units))
  /\ ((exists x, convert_pressure value from_unit to_unit = inr x)
      <-> In from_unit pressure_units /\ In to_unit pressure_units)
  /\ convert_pressure (lit 1) "bar" "kPa"
     = inl (ValueError "Unknown pressure unit: bar").
Proof.
  assert (Hbar : convert_pressure (lit 1) "bar" "kPa"
                 = inl (ValueError "Unknown pressure unit: bar")).
  { apply convert_pressure_unknown_from. intros Hb.
    repeat (destruct Hb as [Hb|Hb]; [discriminate|]). destruct Hb. }
  destruct (in_dec string_dec from_unit pressure_units) as [Hf|Hf];
  [destruct (in_dec string_dec to_unit pressure_units) as [Ht|Ht]|].
  - destruct (convert_pressure_known value from_unit to_unit Hf Ht) as [x Hx].
    split; [split|split; [split|exact Hbar]].
    + intros [u [_ Hu]]. congruence.
    + tauto.
    + tauto.
    + intros _. now exists x.
  - pose proof (convert_pressure_unknown_to value from_unit to_unit Hf Ht) as E.
    split; [split|split; [split|exact Hbar]].
    + tauto.
    + intros _. now exists to_unit.
    + intros [x Hx]. congruence.
    + tauto.
  - pose proof (convert_pressure_unknown_from value from_unit to_unit Hf) as E.
    split; [split|split; [split|exact Hbar]].
    + tauto.
    + intros _. now exists from_unit.
    + intros [x Hx]. congruence.
    + tauto.
Qed.

Lemma convert_pressure_unknown_unit_witness :
  convert_pressure (T:=float) 1%float "bar" "kPa"
  = inl (ValueError "Unknown pressure unit: bar").
Proof.
  assert (L : @LiteralDivisors float binary64) by (vm_compute; reflexivity).
  exact (proj2 (proj2 (convert_pressure_unknown_unit float binary64 L
                         1%float "bar" "kPa"))).
Defined.

(** C8. [convert_density] returns its value unchanged whenever the two unit
    strings are equal, whatever they are (the comparison is all it does, no
    unit is looked up), and raises its not-implemented [ValueError] for every
    pair of different unit strings. *)
Theorem convert_density_identity_or_not_implemented (T : Type) (value : T)
    (from_unit to_unit : string) :
  (from_unit = to_unit -> convert_density value from_unit to_unit = inr value)
  /\ (from_unit <> to_unit ->
      convert_density value from_unit to_unit
      = inl (ValueError "Density conversion not implemented for this context.")).
Proof.
  unfold convert_density.
  destruct (String.eqb_spec from_unit to_unit) as [E|E]; split; intros E';
    try reflexivity; contradiction.
Qed.

Lemma convert_density_identity_or_not_implemented_witness :
  convert_density 1.2%Q "lb/ft3" "lb/ft3" = inr 1.2%Q
  /\ convert_density 1.2%Q "kg/m3" "lb/ft3"
     = inl (ValueError "Density conversion not implemented for this context.").
Proof.
  split.
  - apply (proj1 (convert_density_identity_or_not_implemented
                    Q 1.2%Q "lb/ft3" "lb/ft3")).
    reflexivity.
  - apply (proj2 (convert_density_identity_or_not_implemented
                    Q 1.2%Q "kg/m3" "lb/ft3")).
    discriminate.
Defined.


(** C3 (as amended).  In exact arithmetic the round trip of every value
    through kPa and back to its own pressure unit returns that value, for
    each of the six units.  No floating-point tolerance is promised for
    every value: a value far below the barg offset is absorbed by it. *)
Theorem pressure_round_trip_exact (U : string) (v : Q) :
  In U pressure_units ->
  exists r : Q, pressure_round_trip v U = inr r /\ (r == v)%Q.
Proof.
  intros HU.
  repeat (destruct HU as [<-|HU]; [|]); try destruct HU;
    (eexists; split; [reflexivity|]); exact_arith; field.
Qed.

Lemma pressure_round_trip_exact_witness :
  exists r : Q, pressure_round_trip 2.5%Q "barg" = inr r /\ (r == 2.5)%Q.
Proof.
  apply (pressure_round_trip_exact "barg" 2.5%Q). in_list.
Defined.

(** C3, the claim as stated fails in binary64: [1e-20] barg is absorbed by
    the offset [101.325] on the way to kPa and comes back as [0.0], which is
    not within [1e-9] (relative) of [1e-20]. *)
Lemma pressure_round_trip_binary64_off :
  In "barg" pressure_units
  /\ pressure_round_trip 1e-20%float "barg" = inr 0%float
  /\ ~ returns_close (pressure_round_trip 1e-20%float "barg") 1e-20%float.
Proof.
  split; [in_list|]. split; [vm_compute; reflexivity|].
  intros (x & qx & qv & Hr & Hx & Hv & Hw).
  assert (Ex : x = 0%float) by (vm_compute in Hr; congruence).
  subst x. vm_compute in Hx. vm_compute in Hv.
  injection Hx as <-. injection Hv as <-.
  vm_compute in Hw. apply Hw. reflexivity.
Qed.

(** C4 (as amended).  In exact arithmetic the round trip of every value
    through Kelvin and back to its own temperature unit returns that value,
    for each of the four units.  No floating-point tolerance is promised for
    every value: a value far below the Celsius offset is absorbed by it. *)
Theorem temperature_round_trip_exact (U : string) (v : Q) :
  In U temp_units ->
  exists r : Q, temperature_round_trip v U = inr r /\ (r == v)%Q.
Proof.
  intros HU.
  repeat (destruct HU as [<-|HU]; [|]); try destruct HU;
    (eexists; split; [reflexivity|]); exact_arith; field.
Qed.

Lemma temperature_round_trip_exact_witness :
  exists r : Q, temperature_round_trip 98.6%Q "F" = inr r /\ (r == 98.6)%Q.
Proof.
  apply (temperature_round_trip_exact "F" 98.6%Q). in_list.
Defined.

(** C4, the claim as stated fails in binary64: [1e-20] degrees Celsius is
    absorbed by the offset [273.15] and comes back as [0.0]. *)
Lemma temperature_round_trip_binary64_off :
  In "C" temp_units
  /\ temperature_round_trip 1e-20%float "C" = inr 0%float
  /\ ~ returns_close (temperature_round_trip 1e-20%float "C") 1e-20%float.
Proof.
  split; [in_list|]. split; [vm_compute; reflexivity|].
  intros (x & qx & qv & Hr & Hx & Hv & Hw).
  assert (Ex : x = 0%float) by (vm_compute in Hr; congruence).
  subst x. vm_compute in Hx. vm_compute in Hv.
  injection Hx as <-. injection Hv as <-.
  vm_compute in Hw. apply Hw. reflexivity.
Qed.

(** C9. In exact arithmetic: 0 C is 273.15 K, 32 F is 0 C, and 273.15 K is
    491.67 R. *)
Theorem temperature_fixed_points :
  (exists x : Q, convert_temperature 0%Q "C" "K" = inr x /\ (x == 273.15)%Q)
  /\ (exists x : Q, convert_temperature 32%Q "F" "C" = inr x /\ (x == 0)%Q)
  /\ (exists x : Q, convert_temperature 273.15%Q "K" "R" = inr x
                    /\ (x == 491.67)%Q).
Proof.
  repeat apply conj; (eexists; split; [reflexivity|]); reflexivity.
Qed.

(** *** The denominator of the density formula *)

(** In exact arithmetic a raw temperature above zero is above zero in Kelvin,
    whatever its unit. *)
Lemma exact_kelvin_positive (U : string) (v : Q) :
  In U temp_units -> (0 < v)%Q ->
  exists t_k : Q, convert_temperature v U "K" = inr t_k /\ (0 < t_k)%Q.
Proof.
  intros HU Hv.
  repeat (destruct HU as [<-|HU]; [|]); try destruct HU;
    (eexists; split; [reflexivity|]); exact_arith; try lra.
  - setoid_replace ((v - 32) * (5 / 9) + 273.15)%Q
      with ((5 # 9) * v + (45967 # 180))%Q by field.
    lra.
  - setoid_replace (v * (5 / 9))%Q with ((5 # 9) * v)%Q by field.
    lra.
Qed.

Lemma exact_denominator_positive (z t_k : Q) :
  (0 < z)%Q -> (0 < t_k)%Q -> (0 < z * 8.314 * t_k)%Q.
Proof.
  intros Hz Ht. apply Qmult_lt_0_compat; [|exact Ht].
  apply Qmult_lt_0_compat; [exact Hz|reflexivity].
Qed.

(** C5 (as amended).  In exact arithmetic, for every temperature unit and
    every raw value above zero the Kelvin temperature is above zero, so with
    a compressibility factor above zero the denominator [Z * R * T] of the
    density formula is above zero and the division returns.  In binary64
    the product of two tiny positive factors can still round to zero. *)
Theorem denominator_positive_exact (U : string) (v z : Q) :
  In U temp_units -> (0 < v)%Q -> (0 < z)%Q ->
  exists t_k : Q,
    convert_temperature v U "K" = inr t_k
    /\ (0 < t_k)%Q
    /\ (0 < z * UNIVERSAL_GAS_CONSTANT * t_k)%Q
    /\ is_zero (z * UNIVERSAL_GAS_CONSTANT * t_k)%Q = false
    /\ forall x : Q,
         truediv x (z * UNIVERSAL_GAS_CONSTANT * t_k)%Q
         = inr (x / (z * UNIVERSAL_GAS_CONSTANT * t_k))%Q.
Proof.
  intros HU Hv Hz.
  destruct (exact_kelvin_positive U v HU Hv) as [t_k [Ht Hpos]].
  pose proof (exact_denominator_positive z t_k Hz Hpos) as Hd.
  assert (Hnz : is_zero (z * UNIVERSAL_GAS_CONSTANT * t_k)%Q = false).
  { apply exact_is_zero_false. intros E.
    change (UNIVERSAL_GAS_CONSTANT (T:=Q)) with 8.314%Q in E.
    rewrite E in Hd. now apply Qlt_irrefl in Hd. }
  exists t_k. repeat apply conj; try assumption.
  intros x. unfold truediv. rewrite Hnz. reflexivity.
Qed.

Lemma denominator_positive_exact_witness :
  exists t_k : Q,
    convert_temperature 25%Q "C" "K" = inr t_k
    /\ (0 < t_k)%Q
    /\ (0 < 1 * UNIVERSAL_GAS_CONSTANT * t_k)%Q
    /\ is_zero (1 * UNIVERSAL_GAS_CONSTANT * t_k)%Q = false
    /\ forall x : Q,
         truediv x (1 * UNIVERSAL_GAS_CONSTANT * t_k)%Q
         = inr (x / (1 * UNIVERSAL_GAS_CONSTANT * t_k))%Q.
Proof.
  apply (denominator_positive_exact "C" 25%Q 1%Q);
    [in_list | reflexivity | reflexivity].
Defined.

(** C5, the claim as stated fails in binary64: with [Z = 1e-200] and a
    temperature of [1e-200] K both are above zero and pass the guard, but
    the product [Z * R * T] rounds to [0.0]; the division raises
    [ZeroDivisionError], which the handler reports as an unexpected error. *)
Lemma denominator_underflows :
  In "K" temp_units
  /\ PrimFloat.ltb 0 1e-200 = true
  /\ convert_temperature 1e-200%float "K" "K" = inr 1e-200%float
  /\ is_zero (1e-200 * UNIVERSAL_GAS_CONSTANT * 1e-200)%float = true
  /\ truediv 1%float (1e-200 * UNIVERSAL_GAS_CONSTANT * 1e-200)%float
     = inl ZeroDivisionError
  /\ density_calculation_app 100%float "kPa" 1e-200%float "K" 28.01%float
       1e-200%float []
     = (ComputationError ZeroDivisionError,
        [CallConvertPressure 100%float "kPa" "kPa";
         CallConvertTemperature 1e-200%float "K" "K"]).
Proof.
  repeat apply conj; try (vm_compute; reflexivity). in_list.
Qed.

(** *** The density *)

(** The handler in exact arithmetic, on supported units and inputs that pass
    the guard. *)
Lemma exact_handler_success (pv : Q) (pu : string) (tv : Q) (tu : string)
    (mw z : Q) (log : list (call Q)) :
  In pu pressure_units -> In tu temp_units -> (0 < z)%Q -> (0 < tv)%Q ->
  exists p_kpa t_k : Q,
    convert_pressure pv pu "kPa" = inr p_kpa
    /\ convert_temperature tv tu "K" = inr t_k
    /\ (0 < t_k)%Q
    /\ density_calculation_app pv pu tv tu mw z log
       = (Success ((p_kpa * 1000 * (mw / 1000)) / (z * 8.314 * t_k))%Q
                  (p_kpa * 1000)%Q t_k (mw / 1000)%Q,
          (log ++ [CallConvertPressure pv pu "kPa";
                   CallConvertTemperature tv tu "K"])%list).
Proof.
  intros Hpu Htu Hz Htv.
  assert (Hkpa : In "kPa" pressure_units) by in_list.
  destruct (convert_pressure_known pv pu "kPa" Hpu Hkpa) as [p_kpa Hp].
  destruct (exact_kelvin_positive tu tv Htu Htv) as [t_k [Ht Hpos]].
  exists p_kpa, t_k. repeat apply conj; try assumption.
  rewrite (handler_runs pv pu tv tu mw z log p_kpa t_k
             (exact_guard_passes z tv Hz Htv) Hp Ht).
  pose proof (exact_denominator_positive z t_k Hz Hpos) as Hd.
  assert (Hnz : is_zero (mul (mul z UNIVERSAL_GAS_CONSTANT) t_k) = false).
  { apply exact_is_zero_false. intros E.
    change (mul (mul z UNIVERSAL_GAS_CONSTANT) t_k)
      with (z * 8.314 * t_k)%Q in E.
    rewrite E in Hd. now apply Qlt_irrefl in Hd. }
  rewrite Hnz. reflexivity.
Qed.

(** C1 (as amended).  On supported units, with [compressibility_factor > 0]
    and a raw [temperature_value > 0], the handler shows the density
    [(pressure_Pa * molecular_weight_kg_mol) / (Z * 8.314 * temperature_K)],
    with [pressure_Pa] the pressure converted to kPa times 1000,
    [temperature_K] the temperature converted to Kelvin and
    [molecular_weight_kg_mol] the molecular weight over 1000, together with
    these three values, after one call of each converter: always in exact
    arithmetic, and in binary64 whenever the product [Z * 8.314 *
    temperature_K] is not zero as computed (when it is, the handler reports
    the [ZeroDivisionError]). *)
Theorem density_formula_shown :
  (forall (pv : Q) (pu : string) (tv : Q) (tu : string) (mw z : Q)
          (log : list (call Q)),
      In pu pressure_units -> In tu temp_units -> (0 < z)%Q -> (0 < tv)%Q ->
      exists p_kpa t_k : Q,
        convert_pressure pv pu "kPa" = inr p_kpa
        /\ convert_temperature tv tu "K" = inr t_k
        /\ density_calculation_app pv pu tv tu mw z log
           = (Success ((p_kpa * 1000 * (mw / 1000)) / (z * 8.314 * t_k))%Q
                      (p_kpa * 1000)%Q t_k (mw / 1000)%Q,
              (log ++ [CallConvertPressure pv pu "kPa";
                       CallConvertTemperature tv tu "K"])%list))
  /\ (forall (pv : float) (pu : string) (tv : float) (tu : string)
             (mw z : float) (log : list (call float)),
      In pu pressure_units -> In tu temp_units ->
      PrimFloat.ltb 0 z = true -> PrimFloat.ltb 0 tv = true ->
      exists p_kpa t_k : float,
        convert_pressure pv pu "kPa" = inr p_kpa
        /\ convert_temperature tv tu "K" = inr t_k
        /\ density_calculation_app pv pu tv tu mw z log
           = (if PrimFloat.is_zero (z * 8.314 * t_k)%float
              then ComputationError ZeroDivisionError
              else Success
                     ((p_kpa * 1000 * (mw / 1000)) / (z * 8.314 * t_k))%float
                     (p_kpa * 1000)%float t_k (mw / 1000)%float,
              (log ++ [CallConvertPressure pv pu "kPa";
                       CallConvertTemperature tv tu "K"])%list)).
Proof.
  split.
  - intros pv pu tv tu mw z log Hpu Htu Hz Htv.
    destruct (exact_handler_success pv pu tv tu mw z log Hpu Htu Hz Htv)
      as (p_kpa & t_k & Hp & Ht & _ & Hrun).
    now exists p_kpa, t_k.
  - intros pv pu tv tu mw z log Hpu Htu Hz Htv.
    assert (Hkpa : In "kPa" pressure_units) by in_list.
    assert (HK : In "K" temp_units) by in_list.
    destruct (convert_pressure_known pv pu "kPa" Hpu Hkpa) as [p_kpa Hp].
    destruct (convert_temperature_known tv tu "K" Htu HK) as [t_k Ht].
    exists p_kpa, t_k. repeat apply conj; try assumption.
    exact (handler_runs pv pu tv tu mw z log p_kpa t_k
             (binary64_guard_passes z tv Hz Htv) Hp Ht).
Qed.

Lemma density_formula_shown_witness :
  (exists p_kpa t_k : Q,
      convert_pressure 1%Q "barg" "kPa" = inr p_kpa
      /\ convert_temperature 77%Q "F" "K" = inr t_k
      /\ density_calculation_app 1%Q "barg" 77%Q "F" 28.01%Q 1%Q []
         = (Success ((p_kpa * 1000 * (28.01 / 1000)) / (1 * 8.314 * t_k))%Q
                    (p_kpa * 1000)%Q t_k (28.01 / 1000)%Q,
            [CallConvertPressure 1%Q "barg" "kPa";
             CallConvertTemperature 77%Q "F" "K"]))
  /\ (exists p_kpa t_k : float,
      convert_pressure 1%float "barg" "kPa" = inr p_kpa
      /\ convert_temperature 77%float "F" "K" = inr t_k
      /\ density_calculation_app 1%float "barg" 77%float "F" 28.01%float
           1%float []
         = (if PrimFloat.is_zero (1 * 8.314 * t_k)%float
            then ComputationError ZeroDivisionError
            else Success
                   ((p_kpa * 1000 * (28.01 / 1000)) / (1 * 8.314 * t_k))%float
                   (p_kpa * 1000)%float t_k (28.01 / 1000)%float,
            [CallConvertPressure 1%float "barg" "kPa";
             CallConvertTemperature 77%float "F" "K"])).
Proof.
  split.
  - apply (proj1 density_formula_shown 1%Q "barg" 77%Q "F" 28.01%Q 1%Q []);
      [in_list | in_list | reflexivity | reflexivity].
  - apply (proj2 density_formula_shown 1%float "barg" 77%float "F"
             28.01%float 1%float []);
      [in_list | in_list | vm_compute; reflexivity | vm_compute; reflexivity].
Defined.

(** C1, the claim as stated fails in binary64: supported units,
    [Z = 1e-200 > 0] and a raw temperature [1e-200 > 0], yet no density is
    shown: the denominator rounds to zero and the handler reports the
    [ZeroDivisionError]. *)
Lemma density_not_shown_on_underflow :
  In "kPa" pressure_units /\ In "K" temp_units
  /\ PrimFloat.ltb 0 1e-200 = true
  /\ density_calculation_app 100%float "kPa" 1e-200%float "K" 28.01%float
       1e-200%float []
     = (ComputationError ZeroDivisionError,
        [CallConvertPressure 100%float "kPa" "kPa";
         CallConvertTemperature 1e-200%float "K" "K"])
  /\ ~ (exists d p t m : float,
          fst (density_calculation_app 100%float "kPa" 1e-200%float "K"
                 28.01%float 1e-200%float [])
          = Success d p t m).
Proof.
  repeat apply conj; try (vm_compute; reflexivity); try in_list.
  intros (d & p & t & m & E). vm_compute in E. discriminate.
Qed.

(** C7 (as amended).  For P = 101.325 kPa, T = 273.15 K, MW = 28.97 g/mol
    and Z = 1 the handler shows a density within 1e-3 of 1.2926 kg/m3, in
    exact arithmetic and in binary64 (where it is 1.2925694365458342). *)
Theorem air_density_at_one_atmosphere :
  (exists d p t m : Q,
      fst (density_calculation_app 101.325%Q "kPa" 273.15%Q "K" 28.97%Q 1%Q [])
      = Success d p t m
      /\ within_abs 0.001 d 1.2926)
  /\ (exists (d p t m : float) (q : Q),
      fst (density_calculation_app 101.325%float "kPa" 273.15%float "K"
             28.97%float 1%float [])
      = Success d p t m
      /\ d = 1.2925694365458342%float
      /\ Q_of_float d = Some q
      /\ within_abs 0.001 q 1.2926).
Proof.
  split.
  - do 4 eexists. split; [reflexivity|]. vm_compute. discriminate.
  - do 5 eexists. split; [vm_compute; reflexivity|].
    split; [reflexivity|]. split; [vm_compute; reflexivity|].
    vm_compute. discriminate.
Qed.

(** C7, the claim as stated fails: the density shown for these inputs is
    2935385.25 / 2270969.1, about 1.29257, which is not within 1e-3 of
    1.2754; the binary64 result, 1.2925694365458342, is not either. *)
Lemma air_density_not_1_2754 :
  (exists d p t m : Q,
      fst (density_calculation_app 101.325%Q "kPa" 273.15%Q "K" 28.97%Q 1%Q [])
      = Success d p t m
      /\ (d == 2935385.25 / 2270969.1)%Q
      /\ ~ within_abs 0.001 d 1.2754)
  /\ (exists (d p t m : float) (q : Q),
      fst (density_calculation_app 101.325%float "kPa" 273.15%float "K"
             28.97%float 1%float [])
      = Success d p t m
      /\ Q_of_float d = Some q
      /\ ~ within_abs 0.001 q 1.2754).
Proof.
  split.
  - do 4 eexists. split; [reflexivity|]. split; [reflexivity|].
    intros Hw. vm_compute in Hw. apply Hw. reflexivity.
  - do 5 eexists. split; [vm_compute; reflexivity|].
    split; [vm_compute; reflexivity|].
    intros Hw. vm_compute in Hw. apply Hw. reflexivity.
Qed.

(** *** Signs *)

Lemma exact_density_sign (p_pa mwk den : Q) :
  (0 < den)%Q ->
  ((p_pa * mwk <= 0 -> p_pa * mwk / den <= 0)
   /\ (0 < p_pa * mwk -> 0 < p_pa * mwk / den))%Q.
Proof.
  intros Hd. split; intros Hn.
  - apply Qle_shift_div_r; [exact Hd|]. now rewrite Qmult_0_l.
  - apply Qlt_shift_div_l; [exact Hd|]. now rewrite Qmult_0_l.
Qed.

(** C10 (as amended).  The handler checks neither the molecular weight nor
    the pressure: in exact arithmetic, on supported units with
    [compressibility_factor > 0] and a raw [temperature_value > 0], it shows
    a density whatever their signs, never the invalid-input error.  The
    density has the sign of [pressure_Pa * molecular_weight]: it is zero or
    negative when one of the two is [<= 0] and the other [>= 0], and positive
    when both are negative (or both positive). *)
Theorem no_positivity_check_on_weight_and_pressure (pv : Q) (pu : string)
    (tv : Q) (tu : string) (mw z : Q) (log : list (call Q)) :
  In pu pressure_units -> In tu temp_units -> (0 < z)%Q -> (0 < tv)%Q ->
  exists (d p_kpa t_k : Q) (log' : list (call Q)),
    convert_pressure pv pu "kPa" = inr p_kpa
    /\ density_calculation_app pv pu tv tu mw z log
       = (Success d (p_kpa * 1000)%Q t_k (mw / 1000)%Q, log')
    /\ (mw <= 0 -> 0 <= p_kpa -> d <= 0)%Q
    /\ (0 <= mw -> p_kpa <= 0 -> d <= 0)%Q
    /\ (mw < 0 -> p_kpa < 0 -> 0 < d)%Q
    /\ (0 < mw -> 0 < p_kpa -> 0 < d)%Q.
Proof.
  intros Hpu Htu Hz Htv.
  destruct (exact_handler_success pv pu tv tu mw z log Hpu Htu Hz Htv)
    as (p_kpa & t_k & Hp & Ht & Hpos & Hrun).
  pose proof (exact_denominator_positive z t_k Hz Hpos) as Hd.
  destruct (exact_density_sign (p_kpa * 1000) (mw / 1000) _ Hd) as [Hle Hlt].
  eexists _, p_kpa, t_k, _. split; [exact Hp|]. split; [exact Hrun|].
  assert (Hm : (mw / 1000 == mw * (1 # 1000))%Q) by field.
  repeat apply conj; intros Hmw Hpv.
  - apply Hle. rewrite Hm. nra.
  - apply Hle. rewrite Hm. nra.
  - apply Hlt. rewrite Hm. nra.
  - apply Hlt. rewrite Hm. nra.
Qed.

Lemma no_positivity_check_on_weight_and_pressure_witness :
  exists (d p_kpa t_k : Q) (log' : list (call Q)),
    convert_pressure (-2)%Q "barg" "kPa" = inr p_kpa
    /\ density_calculation_app (-2)%Q "barg" 300%Q "K" 28.01%Q 1%Q []
       = (Success d (p_kpa * 1000)%Q t_k (28.01 / 1000)%Q, log')
    /\ (28.01 <= 0 -> 0 <= p_kpa -> d <= 0)%Q
    /\ (0 <= 28.01 -> p_kpa <= 0 -> d <= 0)%Q
    /\ (28.01 < 0 -> p_kpa < 0 -> 0 < d)%Q
    /\ (0 < 28.01 -> 0 < p_kpa -> 0 < d)%Q.
Proof.
  apply (no_positivity_check_on_weight_and_pressure
           (-2)%Q "barg" 300%Q "K" 28.01%Q 1%Q []);
    [in_list | in_list | reflexivity | reflexivity].
Defined.

(** C10, the claim as stated fails: with a molecular weight of -28 g/mol and
    a pressure of -100 kPa (supported units, Z = 1, T = 300 K) the weight is
    [<= 0] and the converted pressure is negative, yet the density shown is
    positive, not zero or negative. *)
Lemma negative_weight_and_pressure_give_positive_density :
  In "kPa" pressure_units /\ In "K" temp_units
  /\ (0 < 1)%Q /\ (0 < 300)%Q /\ (-28 <= 0)%Q
  /\ convert_pressure (-100)%Q "kPa" "kPa" = inr (-100)%Q
  /\ exists d p t m : Q,
       fst (density_calculation_app (-100)%Q "kPa" 300%Q "K" (-28)%Q 1%Q [])
       = Success d p t m
       /\ (0 < d)%Q /\ ~ (d <= 0)%Q.
Proof.
  repeat apply conj; try reflexivity; try in_list; try discriminate.
  do 4 eexists. split; [reflexivity|]. split; [reflexivity|].
  intros Hle. apply Hle. reflexivity.
Qed.

(** *** The fixed points in binary64 *)

(** The first two fixed points of C9 are met exactly by the floats; the third
    is one rounding away: [273.15 * (9/5)] is [491.66999999999996]. *)
Remark temperature_fixed_points_binary64 :
  convert_temperature 0%float "C" "K" = inr 273.15%float
  /\ convert_temperature 32%float "F" "C" = inr 0%float
  /\ convert_temperature 273.15%float "K" "R" = inr 491.66999999999996%float
  /\ PrimFloat.eqb 491.66999999999996 491.67 = false.
Proof.
  repeat apply conj; vm_compute; reflexivity.
Qed.

(** * Further properties of the converter and of the handler *)

Section MoreConverterLemmas.

Context {T : Type} `{LiteralDivisors T}.

Local Open Scope string_scope.

Ltac divide := rewrite ?truediv_lit by in_list.

Lemma convert_temperature_unknown_from (value : T) (from_unit to_unit : string) :
  ~ In from_unit temp_units ->
  convert_temperature value from_unit to_unit
  = inl (ValueError ("Unknown temperature unit: " ++ from_unit)).
Proof.
  intros Hn. unfold convert_temperature. unknown_unit from_unit Hn.
  reflexivity.
Qed.

Lemma convert_temperature_unknown_to (value : T) (from_unit to_unit : string) :
  In from_unit temp_units -> ~ In to_unit temp_units ->
  convert_temperature value from_unit to_unit
  = inl (ValueError ("Unknown temperature unit: " ++ to_unit)).
Proof.
  intros Hf Hn.
  repeat (destruct Hf as [<-|Hf]; [|]); try destruct Hf;
  unfold convert_temperature; cbn [String.eqb Ascii.eqb Bool.eqb]; divide;
  cbn [bind ret]; unknown_unit to_unit Hn; reflexivity.
Qed.

End MoreConverterLemmas.

(** X1. [convert_temperature] raises the [ValueError] "Unknown temperature
    unit: u", with [u] outside [C, F, K, R], exactly when [from_unit] or
    [to_unit] is outside these four units, and it returns a value exactly
    when both are among them.  For every arithmetic in which the literal
    divisors are not zero. *)
Theorem convert_temperature_unknown_unit (T : Type) (A : PyFloat T)
    (L : LiteralDivisors T) (value : T) (from_unit to_unit : string) :
  ((exists u, ~ In u temp_units /\
              convert_temperature value from_unit to_unit
              = inl (ValueError ("Unknown temperature unit: " ++ u)))
   <-> ~ (In from_unit temp_units /\ In to_unit temp_units))
  /\ ((exists x, convert_temperature value from_unit to_unit = inr x)
      <-> In from_unit temp_units /\ In to_unit temp_units).
Proof.
  destruct (in_dec string_dec from_unit temp_units) as [Hf|Hf];
  [destruct (in_dec string_dec to_unit temp_units) as [Ht|Ht]|].
  - destruct (convert_temperature_known value from_unit to_unit Hf Ht)
      as [x Hx].
    split; split.
    + intros [u [_ Hu]]. congruence.
    + tauto.
    + tauto.
    + intros _. now exists x.
  - pose proof (convert_temperature_unknown_to value from_unit to_unit Hf Ht)
      as E.
    split; split.
    + tauto.
    + intros _. now exists to_unit.
    + intros [x Hx]. congruence.
    + tauto.
  - pose proof (convert_temperature_unknown_from value from_unit to_unit Hf)
      as E.
    split; split.
    + tauto.
    + intros _. now exists from_unit.
    + intros [x Hx]. congruence.
    + tauto.
Qed.

Lemma convert_temperature_unknown_unit_witness :
  (exists x, convert_temperature (T:=float) 20%float "C" "F" = inr x)
  <-> In "C" temp_units /\ In "F" temp_units.
Proof.
  assert (L : @LiteralDivisors float binary64) by (vm_compute; reflexivity).
  exact (proj2 (convert_temperature_unknown_unit float binary64 L
                  20%float "C" "F")).
Defined.

(** X2. Both converters check [from_unit] first: when [from_unit] is not
    supported the error names [from_unit], whether or not [to_unit] is
    supported; [to_unit] is named only when [from_unit] is supported and
    [to_unit] is not. *)
Theorem unknown_unit_error_names_first_offender (T : Type) (A : PyFloat T)
    (L : LiteralDivisors T) (value : T) (from_unit to_unit : string) :
  (~ In from_unit pressure_units ->
   convert_pressure value from_unit to_unit
   = inl (ValueError ("Unknown pressure unit: " ++ from_unit)))
  /\ (In from_unit pressure_units -> ~ In to_unit pressure_units ->
      convert_pressure value from_unit to_unit
      = inl (ValueError ("Unknown pressure unit: " ++ to_unit)))
  /\ (~ In from_unit temp_units ->
      convert_temperature value from_unit to_unit
      = inl (ValueError ("Unknown temperature unit: " ++ from_unit)))
  /\ (In from_unit temp_units -> ~ In to_unit temp_units ->
      convert_temperature value from_unit to_unit
      = inl (ValueError ("Unknown temperature unit: " ++ to_unit))).
Proof.
  repeat apply conj.
  - apply convert_pressure_unknown_from.
  - apply convert_pressure_unknown_to.
  - apply convert_temperature_unknown_from.
  - apply convert_temperature_unknown_to.
Qed.

Lemma unknown_unit_error_names_first_offender_witness :
  convert_pressure (T:=float) 1%float "psi" "atm"
  = inl (ValueError "Unknown pressure unit: psi")
  /\ convert_temperature (T:=float) 1%float "K" "kelvin"
     = inl (ValueError "Unknown temperature unit: kelvin").
Proof.
  assert (L : @LiteralDivisors float binary64) by (vm_compute; reflexivity).
  pose proof (unknown_unit_error_names_first_offender float binary64 L
                1%float "psi" "atm") as Hp.
  pose proof (unknown_unit_error_names_first_offender float binary64 L
                1%float "K" "kelvin") as Ht.
  split.
  - apply (proj1 Hp). intros Hb.
    repeat (destruct Hb as [Hb|Hb]; [discriminate|]). destruct Hb.
  - apply (proj2 (proj2 (proj2 Ht))); [in_list|]. intros Hb.
    repeat (destruct Hb as [Hb|Hb]; [discriminate|]). destruct Hb.
Defined.

(** X3. Every pressure conversion is routed through kPa: converting from
    [from_unit] to [to_unit] is the same computation, with the same result or
    the same exception, as converting to ['kPa'] first and from ['kPa'] to
    [to_unit] next.  This holds for all unit strings and in every arithmetic,
    rounding included, because the kPa step changes nothing. *)
Theorem convert_pressure_through_kPa (T : Type) (A : PyFloat T) (value : T)
    (from_unit to_unit : string) :
  convert_pressure value from_unit to_unit
  = (base <- convert_pressure value from_unit "kPa" ;;
     convert_pressure base "kPa" to_unit)%py.
Proof.
  unfold convert_pressure. cbn [String.eqb Ascii.eqb Bool.eqb].
  repeat match goal with
  | |- context [String.eqb from_unit ?s] => destruct (String.eqb from_unit s)
  end; cbn [bind ret raise]; try reflexivity.
  unfold truediv. destruct (is_zero _); reflexivity.
Qed.

(** X4. Every temperature conversion is routed through Kelvin: converting
    from [from_unit] to [to_unit] is the same computation, with the same
    result or the same exception, as converting to ['K'] first and from
    ['K'] to [to_unit] next, for all unit strings and in every arithmetic. *)
Theorem convert_temperature_through_K (T : Type) (A : PyFloat T) (value : T)
    (from_unit to_unit : string) :
  convert_temperature value from_unit to_unit
  = (base <- convert_temperature value from_unit "K" ;;
     convert_temperature base "K" to_unit)%py.
Proof.
  unfold convert_temperature. cbn [String.eqb Ascii.eqb Bool.eqb].
  repeat match goal with
  | |- context [String.eqb from_unit ?s] => destruct (String.eqb from_unit s)
  end; cbn [bind ret raise]; try reflexivity;
  unfold truediv; destruct (is_zero _); reflexivity.
Qed.

(** ** The conversions in exact arithmetic *)

(** Inverses of constants are computed, so that [lra] sees linear terms. *)
Ltac const_div :=
  unfold Qdiv;
  repeat match goal with
  | |- context [Qinv ?c] =>
      let c' := eval vm_compute in (Qinv c) in
      progress change (Qinv c) with c'
  end.

Ltac units H := repeat (destruct H as [<-|H]; [|]); try destruct H.

(** X5. In exact arithmetic every conversion between two supported pressure
    units keeps the order of the values and is one-to-one: a larger pressure
    stays larger in the target unit, and equal results come from equal
    values only. *)
Theorem convert_pressure_order_preserving (A B : string) (v1 v2 : Q) :
  In A pressure_units -> In B pressure_units ->
  exists r1 r2 : Q,
    convert_pressure v1 A B = inr r1 /\ convert_pressure v2 A B = inr r2
    /\ ((v1 < v2)%Q <-> (r1 < r2)%Q) /\ ((v1 == v2)%Q <-> (r1 == r2)%Q).
Proof.
  intros HA HB. units HA; units HB;
    (do 2 eexists; split; [reflexivity|split; [reflexivity|]]);
    exact_arith; const_div; split; split; intros; lra.
Qed.

Lemma convert_pressure_order_preserving_witness :
  exists r1 r2 : Q,
    convert_pressure 1%Q "barg" "pasig" = inr r1
    /\ convert_pressure 2%Q "barg" "pasig" = inr r2
    /\ ((1 < 2)%Q <-> (r1 < r2)%Q) /\ ((1 == 2)%Q <-> (r1 == r2)%Q).
Proof.
  apply (convert_pressure_order_preserving "barg" "pasig" 1%Q 2%Q); in_list.
Defined.

(** X6. In exact arithmetic every conversion between two supported
    temperature units keeps the order of the values and is one-to-one. *)
Theorem convert_temperature_order_preserving (A B : string) (v1 v2 : Q) :
  In A temp_units -> In B temp_units ->
  exists r1 r2 : Q,
    convert_temperature v1 A B = inr r1 /\ convert_temperature v2 A B = inr r2
    /\ ((v1 < v2)%Q <-> (r1 < r2)%Q) /\ ((v1 == v2)%Q <-> (r1 == r2)%Q).
Proof.
  intros HA HB. units HA; units HB;
    (do 2 eexists; split; [reflexivity|split; [reflexivity|]]);
    exact_arith; const_div; split; split; intros; lra.
Qed.

Lemma convert_temperature_order_preserving_witness :
  exists r1 r2 : Q,
    convert_temperature (-40)%Q "F" "C" = inr r1
    /\ convert_temperature 212%Q "F" "C" = inr r2
    /\ ((-40 < 212)%Q <-> (r1 < r2)%Q) /\ ((-40 == 212)%Q <-> (r1 == r2)%Q).
Proof.
  apply (convert_temperature_order_preserving "F" "C" (-40)%Q 212%Q); in_list.
Defined.

Lemma exact_pressure_chain (A B C : string) (v : Q) :
  In A pressure_units -> In B pressure_units -> In C pressure_units ->
  exists r1 r2 : Q,
    (b <- convert_pressure v A B ;; convert_pressure b B C)%py = inr r1
    /\ convert_pressure v A C = inr r2 /\ (r1 == r2)%Q.
Proof.
  intros HA HB HC. units HA; units HB; units HC;
    (do 2 eexists; split; [reflexivity|split; [reflexivity|]]);
    exact_arith; const_div; lra.
Qed.

Lemma exact_temperature_chain (A B C : string) (v : Q) :
  In A temp_units -> In B temp_units -> In C temp_units ->
  exists r1 r2 : Q,
    (b <- convert_temperature v A B ;; convert_temperature b B C)%py = inr r1
    /\ convert_temperature v A C = inr r2 /\ (r1 == r2)%Q.
Proof.
  intros HA HB HC. units HA; units HB; units HC;
    (do 2 eexists; split; [reflexivity|split; [reflexivity|]]);
    exact_arith; const_div; lra.
Qed.

(** X7. In exact arithmetic pressure conversions compose and invert, between
    any supported units and not only through kPa: converting A to B and then
    B to C gives what converting A to C gives, and converting A to B and back
    to A returns the value. *)
Theorem convert_pressure_composes (A B C : string) (v : Q) :
  In A pressure_units -> In B pressure_units -> In C pressure_units ->
  (exists r1 r2 : Q,
      (b <- convert_pressure v A B ;; convert_pressure b B C)%py = inr r1
      /\ convert_pressure v A C = inr r2 /\ (r1 == r2)%Q)
  /\ (exists r : Q,
      (b <- convert_pressure v A B ;; convert_pressure b B A)%py = inr r
      /\ (r == v)%Q).
Proof.
  intros HA HB HC. split; [now apply exact_pressure_chain|].
  clear C HC. units HA; units HB;
    (eexists; split; [reflexivity|]); exact_arith; const_div; lra.
Qed.

Lemma convert_pressure_composes_witness :
  (exists r1 r2 : Q,
      (b <- convert_pressure 3%Q "barg" "mmH2O" ;;
       convert_pressure b "mmH2O" "pasig")%py = inr r1
      /\ convert_pressure 3%Q "barg" "pasig" = inr r2 /\ (r1 == r2)%Q)
  /\ (exists r : Q,
      (b <- convert_pressure 3%Q "barg" "mmH2O" ;;
       convert_pressure b "mmH2O" "barg")%py = inr r
      /\ (r == 3)%Q).
Proof.
  apply (convert_pressure_composes "barg" "mmH2O" "pasig" 3%Q); in_list.
Defined.

(** X8. In exact arithmetic temperature conversions compose and invert,
    between any supported units and not only through Kelvin. *)
Theorem convert_temperature_composes (A B C : string) (v : Q) :
  In A temp_units -> In B temp_units -> In C temp_units ->
  (exists r1 r2 : Q,
      (b <- convert_temperature v A B ;; convert_temperature b B C)%py = inr r1
      /\ convert_temperature v A C = inr r2 /\ (r1 == r2)%Q)
  /\ (exists r : Q,
      (b <- convert_temperature v A B ;; convert_temperature b B A)%py = inr r
      /\ (r == v)%Q).
Proof.
  intros HA HB HC. split; [now apply exact_temperature_chain|].
  clear C HC. units HA; units HB;
    (eexists; split; [reflexivity|]); exact_arith; const_div; lra.
Qed.

Lemma convert_temperature_composes_witness :
  (exists r1 r2 : Q,
      (b <- convert_temperature 50%Q "F" "C" ;;
       convert_temperature b "C" "R")%py = inr r1
      /\ convert_temperature 50%Q "F" "R" = inr r2 /\ (r1 == r2)%Q)
  /\ (exists r : Q,
      (b <- convert_temperature 50%Q "F" "C" ;;
       convert_temperature b "C" "F")%py = inr r
      /\ (r == 50)%Q).
Proof.
  apply (convert_temperature_composes "F" "C" "R" 50%Q); in_list.
Defined.

(** ** The handler on any input *)

Section MoreHandlerLemmas.

Context {T : Type} `{LiteralDivisors T}.

Local Open Scope string_scope.
Local Open Scope py_scope.

Lemma handler_unknown_pressure (pv : T) (pu : string) (tv : T) (tu : string)
    (mw z : T) (log : list (call T)) :
  (z <=? $0) || (tv <=? $0) = false ->
  ~ In pu pressure_units ->
  density_calculation_app pv pu tv tu mw z log
  = (UnitConversionError ("Unknown pressure unit: " ++ pu),
     (log ++ [CallConvertPressure pv pu "kPa"])%list).
Proof.
  intros Hg Hn.
  unfold density_calculation_app, try_body, app_bind, invoke.
  rewrite Hg, (convert_pressure_unknown_from pv pu "kPa" Hn). reflexivity.
Qed.

Lemma handler_unknown_temperature (pv : T) (pu : string) (tv : T)
    (tu : string) (mw z : T) (log : list (call T)) :
  (z <=? $0) || (tv <=? $0) = false ->
  In pu pressure_units -> ~ In tu temp_units ->
  density_calculation_app pv pu tv tu mw z log
  = (UnitConversionError ("Unknown temperature unit: " ++ tu),
     (log ++ [CallConvertPressure pv pu "kPa";
              CallConvertTemperature tv tu "K"])%list).
Proof.
  intros Hg Hp Hn.
  assert (Hk : In "kPa" pressure_units) by in_list.
  destruct (convert_pressure_known pv pu "kPa" Hp Hk) as [p_kpa Hc].
  unfold density_calculation_app, try_body, app_bind, invoke.
  rewrite Hg, Hc, (convert_temperature_unknown_from tv tu "K" Hn).
  rewrite <- app_assoc. reflexivity.
Qed.

End MoreHandlerLemmas.

(** X9. When the guard passes, an unsupported pressure unit is reported
    first: the handler shows the unit-conversion error naming the pressure
    unit after the single call of [convert_pressure], and the temperature is
    not converted, supported or not.  An unsupported temperature unit is
    reported only when the pressure unit is supported, after both calls. *)
Theorem handler_unit_errors (T : Type) (A : PyFloat T) (L : LiteralDivisors T)
    (pv : T) (pu : string) (tv : T) (tu : string) (mw z : T)
    (log : list (call T)) :
  leb z (lit 0) || leb tv (lit 0) = false ->
  (~ In pu pressure_units ->
   density_calculation_app pv pu tv tu mw z log
   = (UnitConversionError ("Unknown pressure unit: " ++ pu),
      (log ++ [CallConvertPressure pv pu "kPa"])%list))
  /\ (In pu pressure_units -> ~ In tu temp_units ->
      density_calculation_app pv pu tv tu mw z log
      = (UnitConversionError ("Unknown temperature unit: " ++ tu),
         (log ++ [CallConvertPressure pv pu "kPa";
                  CallConvertTemperature tv tu "K"])%list)).
Proof.
  intros Hg. split.
  - now apply handler_unknown_pressure.
  - now apply handler_unknown_temperature.
Qed.

Lemma handler_unit_errors_witness :
  density_calculation_app (T:=float) 1%float "bar" 20%float "celsius"
    28.01%float 1%float []
  = (UnitConversionError "Unknown pressure unit: bar",
     [CallConvertPressure 1%float "bar" "kPa"]).
Proof.
  assert (L : @LiteralDivisors float binary64) by (vm_compute; reflexivity).
  apply (proj1 (handler_unit_errors float binary64 L 1%float "bar" 20%float
                  "celsius" 28.01%float 1%float [] eq_refl)).
  intros Hb. repeat (destruct Hb as [Hb|Hb]; [discriminate|]). destruct Hb.
Defined.

(** X10. A density is shown only for valid input: whenever the handler shows
    a density, the guard has passed, both units are supported, the
    denominator [Z * R * T] is not zero as computed, and the four values
    shown are the converted pressure times 1000, the converted temperature,
    the molecular weight over 1000 and their quotient by the denominator,
    after exactly one call of each converter. *)
Theorem density_shown_only_for_valid_input (T : Type) (A : PyFloat T)
    (L : LiteralDivisors T) (pv : T) (pu : string) (tv : T) (tu : string)
    (mw z : T) (log log' : list (call T)) (d p t m : T) :
  density_calculation_app pv pu tv tu mw z log = (Success d p t m, log') ->
  leb z (lit 0) || leb tv (lit 0) = false
  /\ In pu pressure_units /\ In tu temp_units
  /\ (exists p_kpa : T,
        convert_pressure pv pu "kPa" = inr p_kpa /\ p = mul p_kpa (lit 1000))
  /\ convert_temperature tv tu "K" = inr t
  /\ m = quot mw (lit 1000)
  /\ is_zero (mul (mul z UNIVERSAL_GAS_CONSTANT) t) = false
  /\ d = quot (mul p m) (mul (mul z UNIVERSAL_GAS_CONSTANT) t)
  /\ log' = (log ++ [CallConvertPressure pv pu "kPa";
                     CallConvertTemperature tv tu "K"])%list.
Proof.
  intros Hrun.
  destruct (leb z (lit 0) || leb tv (lit 0)) eqn:Hg.
  { rewrite (guard_rejects pv pu tv tu mw z log Hg) in Hrun. discriminate. }
  destruct (in_dec string_dec pu pressure_units) as [Hp|Hp].
  2: { rewrite (handler_unknown_pressure pv pu tv tu mw z log Hg Hp) in Hrun.
       discriminate. }
  destruct (in_dec string_dec tu temp_units) as [Ht|Ht].
  2: { rewrite (handler_unknown_temperature pv pu tv tu mw z log Hg Hp Ht)
         in Hrun.
       discriminate. }
  assert (Hk : In "kPa" pressure_units) by in_list.
  assert (HK : In "K" temp_units) by in_list.
  destruct (convert_pressure_known pv pu "kPa" Hp Hk) as [p_kpa Hcp].
  destruct (convert_temperature_known tv tu "K" Ht HK) as [t_k Hct].
  rewrite (handler_runs pv pu tv tu mw z log p_kpa t_k Hg Hcp Hct) in Hrun.
  destruct (is_zero (mul (mul z UNIVERSAL_GAS_CONSTANT) t_k)) eqn:Hz;
    [discriminate|].
  injection Hrun as <- <- <- <- <-.
  repeat apply conj; try assumption; try reflexivity.
  now exists p_kpa.
Qed.

Lemma density_shown_only_for_valid_input_witness :
  exists (d p t m : float) (log' : list (call float)),
    density_calculation_app 100%float "kPa" 298.15%float "K" 28.01%float
      1%float []
    = (Success d p t m, log')
    /\ In "kPa" pressure_units /\ In "K" temp_units
    /\ m = quot 28.01%float (lit 1000)
    /\ is_zero (mul (mul 1%float UNIVERSAL_GAS_CONSTANT) t) = false
    /\ d = quot (mul p m) (mul (mul 1%float UNIVERSAL_GAS_CONSTANT) t).
Proof.
  assert (L : @LiteralDivisors float binary64) by (vm_compute; reflexivity).
  do 5 eexists. split; [reflexivity|].
  pose proof (density_shown_only_for_valid_input float binary64 L
                100%float "kPa" 298.15%float "K" 28.01%float 1%float
                [] _ _ _ _ _ eq_refl) as Hv.
  repeat apply conj; apply Hv.
Defined.

(** X11. With units taken from the two lists offered by the widgets the
    handler never shows a unit-conversion error: it shows the invalid-input
    error exactly when the guard fires, and otherwise a density, or the
    [ZeroDivisionError] when the denominator is zero as computed; no other
    exception is reported. *)
Theorem offered_units_never_fail_conversion (T : Type) (A : PyFloat T)
    (L : LiteralDivisors T) (pv : T) (pu : string) (tv : T) (tu : string)
    (mw z : T) (log : list (call T)) :
  In pu pressure_units -> In tu temp_units ->
  (forall msg : string,
      fst (density_calculation_app pv pu tv tu mw z log)
      <> UnitConversionError msg)
  /\ (fst (density_calculation_app pv pu tv tu mw z log) = InvalidInput
      <-> leb z (lit 0) || leb tv (lit 0) = true)
  /\ (forall e : exn,
      fst (density_calculation_app pv pu tv tu mw z log) = ComputationError e
      -> e = ZeroDivisionError).
Proof.
  intros Hp Ht.
  destruct (leb z (lit 0) || leb tv (lit 0)) eqn:Hg.
  - rewrite (guard_rejects pv pu tv tu mw z log Hg). cbn [fst].
    repeat apply conj; try discriminate; intros; reflexivity.
  - assert (Hk : In "kPa" pressure_units) by in_list.
    assert (HK : In "K" temp_units) by in_list.
    destruct (convert_pressure_known pv pu "kPa" Hp Hk) as [p_kpa Hcp].
    destruct (convert_temperature_known tv tu "K" Ht HK) as [t_k Hct].
    rewrite (handler_runs pv pu tv tu mw z log p_kpa t_k Hg Hcp Hct).
    cbn [fst]. destruct (is_zero _); repeat apply conj; try discriminate.
    intros e E. now injection E as <-.
Qed.

Lemma offered_units_never_fail_conversion_witness :
  fst (density_calculation_app (T:=float) 100%float "barg" (-5)%float "F"
         28.01%float 1%float [])
  = InvalidInput
  <-> leb 1%float (lit 0) || leb (-5)%float (lit 0) = true.
Proof.
  assert (L : @LiteralDivisors float binary64) by (vm_compute; reflexivity).
  apply (offered_units_never_fail_conversion float binary64 L 100%float
           "barg" (-5)%float "F" 28.01%float 1%float []); in_list.
Defined.

(** X12. The handler only ever appends to the log of converter calls, at
    most the call [convert_pressure(pressure_value, pressure_unit, 'kPa')]
    followed by the call [convert_temperature(temperature_value,
    temperature_unit, 'K')], on the raw input values: nothing when the guard
    fires, the pressure call alone when that call raises, and both calls
    whenever the pressure conversion returns.  In every arithmetic. *)
Theorem handler_converter_calls (T : Type) (A : PyFloat T) (pv : T)
    (pu : string) (tv : T) (tu : string) (mw z : T) (log : list (call T)) :
  (leb z (lit 0) || leb tv (lit 0) = true
   /\ density_calculation_app pv pu tv tu mw z log = (InvalidInput, log))
  \/ (leb z (lit 0) || leb tv (lit 0) = false
      /\ (exists e, convert_pressure pv pu "kPa" = inl e)
      /\ snd (density_calculation_app pv pu tv tu mw z log)
         = (log ++ [CallConvertPressure pv pu "kPa"])%list)
  \/ (leb z (lit 0) || leb tv (lit 0) = false
      /\ (exists p_kpa, convert_pressure pv pu "kPa" = inr p_kpa)
      /\ snd (density_calculation_app pv pu tv tu mw z log)
         = (log ++ [CallConvertPressure pv pu "kPa";
                    CallConvertTemperature tv tu "K"])%list).
Proof.
  destruct (leb z (lit 0) || leb tv (lit 0)) eqn:Hg.
  - left. split; [reflexivity|]. now apply guard_rejects.
  - right.
    unfold density_calculation_app, try_body, app_bind, invoke, eval, app_ret.
    rewrite Hg.
    destruct (convert_pressure pv pu "kPa") as [e|p_kpa].
    + left. repeat apply conj; [reflexivity|now exists e|].
      destruct e; reflexivity.
    + right. repeat apply conj; [reflexivity|now exists p_kpa|].
      rewrite <- app_assoc. cbn [app].
      destruct (convert_temperature tv tu "K") as [e|t_k];
        [destruct e; reflexivity|].
      destruct (truediv mw (lit 1000)) as [e|m]; [destruct e; reflexivity|].
      destruct (truediv _ _) as [e|d]; [destruct e; reflexivity|].
      reflexivity.
Qed.

(** ** The handler in exact arithmetic *)

(** X13. The guard judges the raw temperature value, not the temperature: in
    exact arithmetic a raw value [<= 0] whose Kelvin value is above zero
    (a temperature between absolute zero and 0 C or 0 F) is refused with the
    invalid-input error, while the same temperature entered in Kelvin is
    accepted and a density is shown. *)
Theorem guard_judges_raw_temperature (pv : Q) (pu : string) (v : Q)
    (tu : string) (mw z : Q) (log : list (call Q)) (t_k : Q) :
  In pu pressure_units -> (0 < z)%Q -> (v <= 0)%Q ->
  convert_temperature v tu "K" = inr t_k -> (0 < t_k)%Q ->
  density_calculation_app pv pu v tu mw z log = (InvalidInput, log)
  /\ exists (d p m : Q) (log' : list (call Q)),
       density_calculation_app pv pu t_k "K" mw z log
       = (Success d p t_k m, log').
Proof.
  intros Hpu Hz Hv Hc Hpos. split.
  - apply guard_rejects, exact_guard_fires. now right.
  - assert (HK : In "K" temp_units) by in_list.
    destruct (exact_handler_success pv pu t_k "K" mw z log Hpu HK Hz Hpos)
      as (p_kpa & t' & _ & Ht & _ & Hrun).
    change (@inr exn Q t_k = inr t') in Ht. injection Ht as <-.
    do 4 eexists. exact Hrun.
Qed.

Lemma guard_judges_raw_temperature_witness :
  density_calculation_app 100%Q "kPa" (-10)%Q "C" 28.01%Q 1%Q []
  = (InvalidInput, [])
  /\ exists (d p m : Q) (log' : list (call Q)),
       density_calculation_app 100%Q "kPa" (-10 + 273.15)%Q "K" 28.01%Q 1%Q []
       = (Success d p (-10 + 273.15)%Q m, log').
Proof.
  apply (guard_judges_raw_temperature 100%Q "kPa" (-10)%Q "C" 28.01%Q 1%Q []
           (-10 + 273.15)%Q);
    [in_list | reflexivity | discriminate | reflexivity | reflexivity].
Defined.

(** X14. In exact arithmetic the density does not depend on the units the
    inputs are entered in: the same pressure and the same temperature,
    entered in other supported units (both raw temperature values above
    zero, so that the guard passes), give the same density and the same
    pressure in Pa and temperature in Kelvin. *)
Theorem density_independent_of_units (pv : Q) (A B : string) (tv : Q)
    (C D : string) (mw z : Q) (log : list (call Q)) (pv' tv' : Q) :
  In A pressure_units -> In B pressure_units ->
  In C temp_units -> In D temp_units ->
  (0 < z)%Q -> (0 < tv)%Q -> (0 < tv')%Q ->
  convert_pressure pv A B = inr pv' ->
  convert_temperature tv C D = inr tv' ->
  exists (d1 p1 t1 m1 d2 p2 t2 m2 : Q) (l1 l2 : list (call Q)),
    density_calculation_app pv A tv C mw z log = (Success d1 p1 t1 m1, l1)
    /\ density_calculation_app pv' B tv' D mw z log = (Success d2 p2 t2 m2, l2)
    /\ (d1 == d2)%Q /\ (p1 == p2)%Q /\ (t1 == t2)%Q.
Proof.
  intros HA HB HC HD Hz Htv Htv' Hp Ht.
  assert (Hk : In "kPa" pressure_units) by in_list.
  assert (HK : In "K" temp_units) by in_list.
  destruct (exact_handler_success pv A tv C mw z log HA HC Hz Htv)
    as (p1 & t1 & Hp1 & Ht1 & Hpos1 & Hrun1).
  destruct (exact_handler_success pv' B tv' D mw z log HB HD Hz Htv')
    as (p2 & t2 & Hp2 & Ht2 & Hpos2 & Hrun2).
  assert (Epp : (p2 == p1)%Q).
  { destruct (exact_pressure_chain A B "kPa" pv HA HB Hk)
      as (r1 & r2 & Hr1 & Hr2 & E).
    rewrite Hp in Hr1. cbn [bind] in Hr1. congruence. }
  assert (Ett : (t2 == t1)%Q).
  { destruct (exact_temperature_chain C D "K" tv HC HD HK)
      as (r1 & r2 & Hr1 & Hr2 & E).
    rewrite Ht in Hr1. cbn [bind] in Hr1. congruence. }
  do 10 eexists. split; [exact Hrun1|]. split; [exact Hrun2|].
  repeat apply conj.
  - rewrite Epp, Ett. reflexivity.
  - now rewrite Epp.
  - now rewrite Ett.
Qed.

Lemma density_independent_of_units_witness :
  exists (d1 p1 t1 m1 d2 p2 t2 m2 : Q) (l1 l2 : list (call Q)),
    density_calculation_app 2%Q "barg" 77%Q "F" 28.01%Q 1%Q []
    = (Success d1 p1 t1 m1, l1)
    /\ density_calculation_app ((2 * 100 + 101.325) * 1000)%Q "pascal"
         ((77 - 32) * (5 / 9) + 273.15 - 273.15)%Q "C" 28.01%Q 1%Q []
       = (Success d2 p2 t2 m2, l2)
    /\ (d1 == d2)%Q /\ (p1 == p2)%Q /\ (t1 == t2)%Q.
Proof.
  apply (density_independent_of_units 2%Q "barg" "pascal" 77%Q "F" "C"
           28.01%Q 1%Q []);
    [in_list | in_list | in_list | in_list
    | reflexivity | reflexivity | reflexivity | reflexivity | reflexivity].
Defined.

(** X15. In exact arithmetic the density shown is proportional to the
    molecular weight and inversely proportional to the compressibility
    factor: multiplying the molecular weight by [k > 0] multiplies the
    density by [k], multiplying Z by [k] divides it by [k]. *)
Theorem density_proportional (pv : Q) (pu : string) (tv : Q) (tu : string)
    (mw z k : Q) (log : list (call Q)) :
  In pu pressure_units -> In tu temp_units ->
  (0 < z)%Q -> (0 < tv)%Q -> (0 < k)%Q ->
  exists (d p t m d_w m_w d_z : Q) (l l_w l_z : list (call Q)),
    density_calculation_app pv pu tv tu mw z log = (Success d p t m, l)
    /\ density_calculation_app pv pu tv tu (mw * k)%Q z log
       = (Success d_w p t m_w, l_w)
    /\ density_calculation_app pv pu tv tu mw (z * k)%Q log
       = (Success d_z p t m, l_z)
    /\ (d_w == d * k)%Q /\ (d_z == d / k)%Q.
Proof.
  intros Hpu Htu Hz Htv Hk.
  assert (Hzk : (0 < z * k)%Q) by now apply Qmult_lt_0_compat.
  destruct (exact_handler_success pv pu tv tu mw z log Hpu Htu Hz Htv)
    as (p1 & t1 & Hp1 & Ht1 & Hpos & Hrun1).
  destruct (exact_handler_success pv pu tv tu (mw * k)%Q z log Hpu Htu Hz Htv)
    as (p2 & t2 & Hp2 & Ht2 & _ & Hrun2).
  destruct (exact_handler_success pv pu tv tu mw (z * k)%Q log Hpu Htu Hzk Htv)
    as (p3 & t3 & Hp3 & Ht3 & _ & Hrun3).
  assert (p2 = p1) by congruence. assert (p3 = p1) by congruence.
  assert (t2 = t1) by congruence. assert (t3 = t1) by congruence.
  subst p2 p3 t2 t3.
  do 10 eexists. split; [exact Hrun1|]. split; [exact Hrun2|].
  split; [exact Hrun3|].
  split; field; repeat split; intros E; rewrite E in *;
    try (now apply Qlt_irrefl in Hz); try (now apply Qlt_irrefl in Hpos);
    try (now apply Qlt_irrefl in Hk).
Qed.

Lemma density_proportional_witness :
  exists (d p t m d_w m_w d_z : Q) (l l_w l_z : list (call Q)),
    density_calculation_app 100%Q "kPa" 300%Q "K" 28.01%Q 1%Q []
    = (Success d p t m, l)
    /\ density_calculation_app 100%Q "kPa" 300%Q "K" (28.01 * 2)%Q 1%Q []
       = (Success d_w p t m_w, l_w)
    /\ density_calculation_app 100%Q "kPa" 300%Q "K" 28.01%Q (1 * 2)%Q []
       = (Success d_z p t m, l_z)
    /\ (d_w == d * 2)%Q /\ (d_z == d / 2)%Q.
Proof.
  apply (density_proportional 100%Q "kPa" 300%Q "K" 28.01%Q 1%Q 2%Q []);
    [in_list | in_list | reflexivity | reflexivity | reflexivity].
Defined.

(** X16. The invalid-input error means a failed guard and nothing else: for
    all unit strings and in every arithmetic the handler shows it exactly
    when [compressibility_factor <= 0 or temperature_value <= 0] is true; in
    exact arithmetic, exactly when [Z <= 0] or the raw temperature value is
    [<= 0].  No unsupported unit and no failed division is reported as
    invalid input. *)
Theorem invalid_input_iff_guard :
  (forall (T : Type) (A : PyFloat T) (pv : T) (pu : string) (tv : T)
          (tu : string) (mw z : T) (log : list (call T)),
      fst (density_calculation_app pv pu tv tu mw z log) = InvalidInput
      <-> leb z (lit 0) || leb tv (lit 0) = true)
  /\ (forall (pv : Q) (pu : string) (tv : Q) (tu : string) (mw z : Q)
             (log : list (call Q)),
      fst (density_calculation_app pv pu tv tu mw z log) = InvalidInput
      <-> (z <= 0 \/ tv <= 0)%Q).
Proof.
  assert (Hgen : forall (T : Type) (A : PyFloat T) (pv : T) (pu : string)
            (tv : T) (tu : string) (mw z : T) (log : list (call T)),
            fst (density_calculation_app pv pu tv tu mw z log) = InvalidInput
            <-> leb z (lit 0) || leb tv (lit 0) = true).
  { intros T A pv pu tv tu mw z log.
    destruct (leb z (lit 0) || leb tv (lit 0)) eqn:Hg.
    - rewrite (guard_rejects pv pu tv tu mw z log Hg). split; reflexivity.
    - unfold density_calculation_app, try_body, app_bind, invoke, eval,
        app_ret.
      rewrite Hg. split; [|discriminate].
      destruct (convert_pressure pv pu "kPa") as [e|p_kpa];
        [destruct e; discriminate|].
      destruct (convert_temperature tv tu "K") as [e|t_k];
        [destruct e; discriminate|].
      destruct (truediv mw (lit 1000)) as [e|m]; [destruct e; discriminate|].
      destruct (truediv _ _) as [e|d]; [destruct e; discriminate|].
      discriminate. }
  split; [exact Hgen|].
  intros pv pu tv tu mw z log. rewrite Hgen. split.
  - exact_arith. intros Hg. apply orb_true_iff in Hg.
    destruct Hg as [Hg|Hg]; [left|right]; now apply Qle_bool_iff.
  - apply exact_guard_fires.
Qed.
